(** * Movie Ratings Dashboard: the filtering and aggregation contract

    A shallow embedding of [app_movies6.py]: the loader [load_movies], the
    sidebar filter that computes [filtered] from [movies], the aggregates
    shown as KPI cards and in the summary table, and the part of the page
    that displays them.  Chart drawing is presentation and is not embedded. *)

From Stdlib Require Import ssreflect ZArith Ascii String.
From Stdlib Require Import SpecFloat.
From stdpp Require Import base numbers list sorting strings gmap.

Set Warnings "-rewrite-rw".

Local Open Scope string_scope.
Local Open Scope Z_scope.

(** ** Exceptions and results *)

(** The Python exceptions the embedded code paths can raise. *)
Inductive exn : Type :=
  | FileNotFoundError
  | PermissionError
  | ParserError
  | ValueError
  | NameError.

Inductive result (A : Type) : Type :=
  | Ok (a : A)
  | Raise (e : exn).

Arguments Ok {A} a.
Arguments Raise {A} e.

#[global] Instance result_ret : MRet result := @Ok.

#[global] Instance result_bind : MBind result := λ A B k r,
  match r with
  | Ok a => k a
  | Raise e => Raise e
  end.

(** ** Data model *)

(** IEEE 754 binary64, the dtype of the numeric columns and of every mean. *)
Definition float64 : Type := spec_float.
Definition f64_add : float64 → float64 → float64 := SFadd 53 1024.
Definition f64_div : float64 → float64 → float64 := SFdiv 53 1024.
Definition f64_zero : float64 := S754_zero false.
Definition f64_nan : float64 := S754_nan.
Definition f64_of_Z (z : Z) : float64 := binary_normalize 53 1024 z 0 false.

Definition is_nan (x : float64) : bool :=
  match x with
  | S754_nan => true
  | _ => false
  end.

(** One row of the table, under the column names assigned at line 34.  A
    blank cell of a text column is read as a missing value, [None]; a
    missing number is NaN.  [Year] is the integer that [astype(int)] gives
    for the cell. *)
Record Movie : Type := mkMovie {
  Film : option string;
  Genre : option string;
  CriticRating : float64;
  AudienceRating : float64;
  BudgetMillions : float64;
  Year : Z
}.

(** A data frame, row-wise: every row carries its index label.  Boolean
    indexing keeps the label of each row it keeps. *)
Definition DataFrame : Type := list (nat * Movie).

Definition labels (df : DataFrame) : list nat := df.*1.

(** The frame [read_csv] builds from the parsed rows: a [RangeIndex]
    [0 .. n-1]. *)
Definition range_frame (rows : list Movie) : DataFrame :=
  imap (λ i m, (i, m)) rows.

(** [df.Genre] and [df.Year.astype(int)] as columns of values. *)
Definition Genre_col (df : DataFrame) : list (option string) :=
  (λ r, Genre r.2) <$> df.
Definition Year_col (df : DataFrame) : list Z := (λ r, Year r.2) <$> df.

(** ** The filter (lines 111-115) *)

(** [Series.between(left, right)], inclusive on both sides:
    [(s >= left) & (s <= right)]. *)
Definition between (s : list Z) (left right : Z) : list bool :=
  (λ y, (left <=? y) && (y <=? right)) <$> s.

(** [s == value] on the genre column: elementwise; a value outside the
    categories compares unequal everywhere, and a missing cell compares
    unequal to every value. *)
Definition eq_cell (value : string) (cell : option string) : bool :=
  match cell with
  | Some g => String.eqb g value
  | None => false
  end.

Definition eq_scalar (s : list (option string)) (value : string) : list bool :=
  eq_cell value <$> s.

(** The rows of [df] at which [mask] holds, in order. *)
Fixpoint select_rows (df : DataFrame) (mask : list bool) : DataFrame :=
  match df, mask with
  | r :: df', b :: mask' =>
      if b then r :: select_rows df' mask' else select_rows df' mask'
  | _, _ => []
  end.

(** [df[mask]] with a boolean mask: a mask of the wrong length is refused
    ("Item wrong length"). *)
Definition getitem_bool (df : DataFrame) (mask : list bool) : result DataFrame :=
  if (length mask =? length df)%nat then Ok (select_rows df mask)
  else Raise ValueError.

Definition ALL_GENRES : string := "All Genres".

(** Lines 111-115: the view for the selected genre and year range. *)
Definition filtered (movies : DataFrame) (genre_selected : string)
    (year_range : Z * Z) : result DataFrame :=
  let df := movies in
  df ← getitem_bool df (between (Year_col df) year_range.1 year_range.2);
  if negb (String.eqb genre_selected ALL_GENRES)
  then getitem_bool df (eq_scalar (Genre_col df) genre_selected)
  else Ok df.

(** ** Widget domains (lines 98-102) *)

Definition str_le (s1 s2 : string) : Prop := String.leb s1 s2 = true.

#[global] Instance str_le_dec s1 s2 : Decision (str_le s1 s2).
Proof. unfold str_le. apply _. Defined.

(** [movies.Genre.cat.categories]: the distinct genres, sorted; a missing
    value is not a category. *)
Definition genre_categories (movies : DataFrame) : list string :=
  merge_sort str_le (remove_dups (omap id (Genre_col movies))).

Definition genre_options (movies : DataFrame) : list string :=
  ALL_GENRES :: genre_categories movies.

(** [int(s.min())] and [int(s.max())]: the minimum of an empty column is
    NaN, which [int] refuses. *)
Definition int_min (s : list Z) : result Z :=
  match s with
  | [] => Raise ValueError
  | y :: ys => Ok (foldr Z.min y ys)
  end.

Definition int_max (s : list Z) : result Z :=
  match s with
  | [] => Raise ValueError
  | y :: ys => Ok (foldr Z.max y ys)
  end.

Definition year_min (movies : DataFrame) : result Z := int_min (Year_col movies).
Definition year_max (movies : DataFrame) : result Z := int_max (Year_col movies).

(** ** Aggregates *)

(** The sum of a column, accumulated from [0.0].  For long columns the
    library adds pairwise; nothing below depends on the order. *)
Definition f64_sum (values : list float64) : float64 :=
  foldl f64_add f64_zero values.

(** [Series.mean()]: missing values are skipped, and the mean of no values
    is NaN ([the_sum / count if count > 0 else nan]). *)
Definition mean (s : list float64) : float64 :=
  let values := filter (λ x, is_nan x = false) s in
  let count := length values in
  if (0 <? count)%nat then f64_div (f64_sum values) (f64_of_Z (Z.of_nat count))
  else f64_nan.

(** [Series.count()]: the number of values present. *)
Definition count (s : list float64) : nat :=
  length (filter (λ x, is_nan x = false) s).

Definition CriticRating_col (df : DataFrame) : list float64 :=
  (λ r, CriticRating r.2) <$> df.
Definition AudienceRating_col (df : DataFrame) : list float64 :=
  (λ r, AudienceRating r.2) <$> df.
Definition BudgetMillions_col (df : DataFrame) : list float64 :=
  (λ r, BudgetMillions r.2) <$> df.

(** The [count] and [mean] entries of one row of [describe().T]. *)
Record Stats : Type := mkStats {
  stat_count : nat;
  stat_mean : float64
}.

Definition describe_col (s : list float64) : Stats :=
  {| stat_count := count s; stat_mean := mean s |}.

(** Line 133: [df[['CriticRating','AudienceRating','BudgetMillions']].describe().T],
    one row per column. *)
Definition describe (df : DataFrame) : list (string * Stats) :=
  [ ("CriticRating", describe_col (CriticRating_col df));
    ("AudienceRating", describe_col (AudienceRating_col df));
    ("BudgetMillions", describe_col (BudgetMillions_col df)) ].

(** [df.head(n)]. *)
Definition head (n : nat) (df : DataFrame) : DataFrame := take n df.

(** ** The page *)

(** What the script has put on the page.  Titles, layout and styling are
    left out; a KPI value is kept as the number that is formatted. *)
Inductive Element : Type :=
  | KpiCard (title : string) (value : float64)
  | KpiTotal (title : string) (value : nat)
  | Selectbox (label : string) (options : list string)
  | Slider (label : string) (min_value max_value : Z) (value : Z * Z)
  | SidebarWrite (n : nat)
  | Dataframe (df : DataFrame)
  | StatsTable (rows : list (string * Stats)).

(** A run of the script: it appends to the page rendered so far and either
    goes on with a value or stops at an exception, the page staying as it
    was when the exception was raised. *)
Definition App (A : Type) : Type := list Element → result A * list Element.

#[global] Instance App_ret : MRet App := λ A a page, (Ok a, page).

#[global] Instance App_bind : MBind App := λ A B k m page,
  match m page with
  | (Ok a, page') => k a page'
  | (Raise e, page') => (Raise e, page')
  end.

Definition emit (e : Element) : App unit := λ page, (Ok tt, (page ++ [e])%list).

Definition lift {A : Type} (r : result A) : App A := λ page, (r, page).

(** The widget values of one run: what the select box, the slider and the
    button return. *)
Record Inputs : Type := mkInputs {
  genre_selected : string;
  year_range : Z * Z;
  show_first_15 : bool
}.

(** Lines 53-91. *)
Definition kpi_cards (movies : DataFrame) : App unit :=
  emit (KpiCard "Avg Critic Rating" (mean (CriticRating_col movies)));;
  emit (KpiCard "Avg Audience Rating" (mean (AudienceRating_col movies)));;
  emit (KpiCard "Avg Budget (M)" (mean (BudgetMillions_col movies)));;
  emit (KpiTotal "Total Movies" (length movies)).

(** Lines 42-133, from the KPI cards to the overview tab; the value is the
    frame bound to [filtered]. *)
Definition app (movies : DataFrame) (inp : Inputs) : App DataFrame :=
  kpi_cards movies;;
  emit (Selectbox "Select Genre" (genre_options movies));;
  lo ← lift (year_min movies);
  hi ← lift (year_max movies);
  emit (Slider "Select Year Range" lo hi (lo, hi));;
  view ← lift (filtered movies (genre_selected inp) (year_range inp));
  emit (SidebarWrite (length view));;
  emit (Dataframe (head (if show_first_15 inp then 15%nat else 10%nat) view));;
  emit (StatsTable (describe view));;
  mret view.

Definition is_kpi (e : Element) : bool :=
  match e with
  | KpiCard _ _ | KpiTotal _ _ => true
  | _ => false
  end.

(** ** The loader (lines 29-40) *)

(** A table as parsed, before any column is given a meaning. *)
Record Frame : Type := mkFrame {
  columns : list string;
  values : list (list string)
}.

Inductive File : Type :=
  | Unreadable
  | Text (content : string).

Definition CANONICAL : list string :=
  ["Film"; "Genre"; "CriticRating"; "AudienceRating"; "BudgetMillions"; "Year"].

Section Loader.

(** The CSV parser of the library, on the text of a file. *)
Variable parse : string → result Frame.

Definition read_csv (fs : gmap string File) (path : string) : result Frame :=
  match fs !! path with
  | None => Raise FileNotFoundError
  | Some Unreadable => Raise PermissionError
  | Some (Text content) => parse content
  end.

(** [df.columns = names]: refused on a length mismatch. *)
Definition set_columns (df : Frame) (names : list string) : result Frame :=
  if (length names =? length (columns df))%nat
  then Ok {| columns := names; values := values df |}
  else Raise ValueError.

(** Lines 32-38.  The three casts to the category dtype change how a
    column is stored, not its name or its values. *)
Definition load_movies (fs : gmap string File) (path : string) : result Frame :=
  movies ← read_csv fs path;
  movies ← set_columns movies CANONICAL;
  mret movies.

(** [@st.cache_data]: a result is kept under its argument; an exception
    is not. *)
Definition load_movies_cached (fs : gmap string File)
    (cache : gmap string Frame) (path : string)
    : result Frame * gmap string Frame :=
  match cache !! path with
  | Some movies => (Ok movies, cache)
  | None =>
      match load_movies fs path with
      | Ok movies => (Ok movies, <[path := movies]> cache)
      | Raise e => (Raise e, cache)
      end
  end.

End Loader.

(** ** Data of the charts that do not follow the filter *)

(** A list comprehension whose body can raise: left to right, stopping at
    the first exception. *)
Fixpoint for_each {A B : Type} (f : A → result B) (l : list A) : result (list B) :=
  match l with
  | [] => Ok []
  | x :: l' => y ← f x; ys ← for_each f l'; mret (y :: ys)
  end.

(** Line 208. *)
Definition genre_list (movies : DataFrame) : list string :=
  genre_categories movies.

(** Line 209: [[movies[movies.Genre == g].BudgetMillions for g in genre_list]],
    the columns stacked in the budget histogram. *)
Definition budget_by_genre (movies : DataFrame) : result (list (list float64)) :=
  for_each
    (λ g, df ← getitem_bool movies (eq_scalar (Genre_col movies) g);
          mret (BudgetMillions_col df))
    (genre_list movies).

(** Line 259: [movies[movies.Genre=="Drama"]], the data of the violin plot
    of the advanced tab. *)
Definition drama_movies (movies : DataFrame) : result DataFrame :=
  getitem_bool movies (eq_scalar (Genre_col movies) "Drama").

(** ** Frames as objects *)

(** Python names hold references: a frame is an object in a heap, a method
    that builds a frame allocates a new object, and an assignment rebinds a
    name.  A statement runs in a heap and leaves a heap, or raises. *)
Definition Py (A : Type) : Type :=
  gmap nat DataFrame → result (A * gmap nat DataFrame).

#[global] Instance Py_ret : MRet Py := λ A a heap, Ok (a, heap).

#[global] Instance Py_bind : MBind Py := λ A B k m heap,
  match m heap with
  | Ok (a, heap') => k a heap'
  | Raise e => Raise e
  end.

(** The frame a reference points to; a name bound to no frame is a
    NameError. *)
Definition deref (ref : nat) : Py DataFrame := λ heap,
  match heap !! ref with
  | Some df => Ok (df, heap)
  | None => Raise NameError
  end.

(** A new object: its reference is one the heap does not use. *)
Definition alloc (df : DataFrame) : Py nat := λ heap,
  let ref := fresh (dom heap) in Ok (ref, <[ref := df]> heap).

Definition py_lift {A : Type} (r : result A) : Py A := λ heap,
  match r with
  | Ok a => Ok (a, heap)
  | Raise e => Raise e
  end.

(** [df.copy()]: a new object with the rows of [df]. *)
Definition df_copy (ref : nat) : Py nat :=
  df ← deref ref; alloc df.

(** [df[mask]], the mask computed from [df] itself: a new object with the
    selected rows; [df] is not modified. *)
Definition df_getitem (ref : nat) (mask : DataFrame → list bool) : Py nat :=
  df ← deref ref;
  selected ← py_lift (getitem_bool df (mask df));
  alloc selected.

(** Lines 111-115 as statements; [movies] is the reference the name
    [movies] holds, and the value is the reference bound to [filtered] at
    the end. *)
Definition filter_block (movies : nat) (genre_selected : string)
    (year_range : Z * Z) : Py nat :=
  filtered ← df_copy movies;
  filtered ← df_getitem filtered
               (λ df, between (Year_col df) year_range.1 year_range.2);
  if negb (String.eqb genre_selected ALL_GENRES)
  then df_getitem filtered (λ df, eq_scalar (Genre_col df) genre_selected)
  else mret filtered.

(** ** The filtered view, as the specification words it *)

(** A record is kept when its year lies within the inclusive range and,
    unless the selection is the "no constraint" entry, its genre is the
    selected one. *)
Definition in_range (yr : Z * Z) (m : Movie) : Prop := yr.1 ≤ Year m ≤ yr.2.

Definition genre_ok (g : string) (m : Movie) : Prop :=
  g = ALL_GENRES ∨ Genre m = Some g.

Definition kept (g : string) (yr : Z * Z) (r : nat * Movie) : Prop :=
  in_range yr r.2 ∧ genre_ok g r.2.

#[global] Instance in_range_dec yr m : Decision (in_range yr m).
Proof. unfold in_range. apply _. Defined.

#[global] Instance genre_ok_dec g m : Decision (genre_ok g m).
Proof. unfold genre_ok. apply _. Defined.

#[global] Instance kept_dec g yr r : Decision (kept g yr r).
Proof. unfold kept. apply _. Defined.

Definition filtered_view (D : DataFrame) (g : string) (yr : Z * Z) : DataFrame :=
  filter (kept g yr) D.

(** The rows whose genre cell holds a value. *)
Definition has_genre (r : nat * Movie) : Prop := is_Some (Genre r.2).

#[global] Instance has_genre_dec r : Decision (has_genre r).
Proof. unfold has_genre. apply _. Defined.

(** The rows of a view, named by their index labels. *)
Definition label_set (view : result DataFrame) : gset nat :=
  match view with
  | Ok df => list_to_set (labels df)
  | Raise _ => ∅
  end.

(** The union of the views for every genre of the genre domain. *)
Definition union_over_genres (D : DataFrame) (yr : Z * Z) : gset nat :=
  ⋃ ((λ g, label_set (filtered D g yr)) <$> genre_categories D).

(** The KPI cards of a page, and what the script renders for a dataset. *)
Definition kpis_of (page : list Element) : list Element :=
  filter (λ e, is_kpi e) page.

Definition kpi_elements (movies : DataFrame) : list Element :=
  [ KpiCard "Avg Critic Rating" (mean (CriticRating_col movies));
    KpiCard "Avg Audience Rating" (mean (AudienceRating_col movies));
    KpiCard "Avg Budget (M)" (mean (BudgetMillions_col movies));
    KpiTotal "Total Movies" (length movies) ].

(** The three rows of the summary table when no value is present. *)
Definition empty_stats : list (string * Stats) :=
  [ ("CriticRating", mkStats 0 f64_nan);
    ("AudienceRating", mkStats 0 f64_nan);
    ("BudgetMillions", mkStats 0 f64_nan) ].

(** ** A small table for the examples *)

Definition movie_A : Movie :=
  mkMovie (Some "A") (Some "Comedy") (f64_of_Z 87) (f64_of_Z 81) (f64_of_Z 8) 2000.

Definition movie_B : Movie :=
  mkMovie (Some "B") (Some "Drama") (f64_of_Z 9) (f64_of_Z 44) (f64_of_Z 105) 2010.

Definition movie_C : Movie :=
  mkMovie (Some "C") (Some "Drama") (f64_of_Z 30) (f64_of_Z 52) (f64_of_Z 20) 2008.

(** A record whose genre cell is blank. *)
Definition movie_N : Movie :=
  mkMovie (Some "N") None (f64_of_Z 50) (f64_of_Z 60) (f64_of_Z 12) 2005.

Definition two_movies : DataFrame := range_frame [movie_A; movie_B].
Definition three_movies : DataFrame := range_frame [movie_A; movie_B; movie_C].
Definition blank_genre_movies : DataFrame := range_frame [movie_N; movie_B].

(** A parser of a single header line, and a few files. *)
Fixpoint split_commas (field : string) (s : string) : list string :=
  match s with
  | EmptyString => [field]
  | String c s' =>
      if Ascii.eqb c ","%char then field :: split_commas EmptyString s'
      else split_commas (field +:+ String c EmptyString) s'
  end.

Definition header_parse (content : string) : result Frame :=
  if String.eqb content EmptyString then Raise ParserError
  else Ok {| columns := split_commas EmptyString content; values := [] |}.

Definition DATA_PATH : string := "Movie-Rating.csv".

Definition some_files : gmap string File :=
  {[ DATA_PATH := Text "Film,Genre,Rotten Tomatoes Ratings %,Audience Ratings %,Budget (million $),Year of release";
     "five.csv" := Text "Film,Genre,Critic,Audience,Year";
     "locked.csv" := Unreadable ]}.

(** * Proofs *)

Section BooleanIndexing.

Variable p : nat * Movie → bool.

Lemma select_rows_fmap df : select_rows df (p <$> df) = filter (λ r, p r) df.
Proof.
  induction df as [|r df IH]; [done|].
  rewrite fmap_cons filter_cons /=. rewrite IH.
  destruct (p r); by case_decide.
Qed.

Lemma getitem_bool_fmap df :
  getitem_bool df (p <$> df) = Ok (filter (λ r, p r) df).
Proof.
  unfold getitem_bool. rewrite length_fmap Nat.eqb_refl.
  by rewrite select_rows_fmap.
Qed.

End BooleanIndexing.

Lemma between_mask df lo hi :
  between (Year_col df) lo hi
  = (λ r : nat * Movie, (lo <=? Year r.2) && (Year r.2 <=? hi)) <$> df.
Proof. unfold between, Year_col. by rewrite -list_fmap_compose. Qed.

Lemma eq_scalar_mask df g :
  eq_scalar (Genre_col df) g = (λ r : nat * Movie, eq_cell g (Genre r.2)) <$> df.
Proof. unfold eq_scalar, Genre_col. by rewrite -list_fmap_compose. Qed.

Lemma year_mask_spec lo hi (r : nat * Movie) :
  (lo <=? Year r.2) && (Year r.2 <=? hi) ↔ in_range (lo, hi) r.2.
Proof.
  unfold in_range. simpl.
  rewrite andb_True. by rewrite !Is_true_true Z.leb_le Z.leb_le.
Qed.

Lemma genre_mask_spec g (r : nat * Movie) :
  eq_cell g (Genre r.2) ↔ Genre r.2 = Some g.
Proof.
  destruct (Genre r.2) as [g'|]; simpl; [|by split].
  rewrite Is_true_true String.eqb_eq. split; [by intros ->|by intros [= ->]].
Qed.

(** The code computes the filtered view of the specification, and never
    raises. *)
Lemma filtered_is_view D g yr : filtered D g yr = Ok (filtered_view D g yr).
Proof.
  destruct yr as [lo hi]. unfold filtered, filtered_view. simpl.
  rewrite between_mask getitem_bool_fmap. simpl.
  destruct (String.eqb_spec g ALL_GENRES) as [->|Hne]; simpl.
  - f_equal. apply list_filter_iff. intros r.
    rewrite year_mask_spec. unfold kept, genre_ok. tauto.
  - rewrite eq_scalar_mask getitem_bool_fmap. f_equal.
    rewrite list_filter_filter. apply list_filter_iff. intros r.
    rewrite year_mask_spec genre_mask_spec. unfold kept, genre_ok. tauto.
Qed.

Lemma filter_none {A} (P : A → Prop) `{∀ x, Decision (P x)} (l : list A) :
  Forall (λ x, ¬ P x) l → filter P l = [].
Proof.
  induction 1 as [|x l Hx _ IH]; [done|].
  by rewrite filter_cons_False.
Qed.

Lemma int_max_upper s mx : int_max s = Ok mx → Forall (λ y, y ≤ mx) s.
Proof.
  destruct s as [|y ys]; [done|]. simpl. intros [= <-].
  induction ys as [|z zs IH]; simpl.
  - by apply Forall_singleton.
  - apply Forall_cons in IH as [Hy Hzs].
    apply Forall_cons; split; [lia|]. apply Forall_cons; split; [lia|].
    eapply Forall_impl; [exact Hzs|]. simpl. lia.
Qed.

Lemma int_min_lower s mn : int_min s = Ok mn → Forall (λ y, mn ≤ y) s.
Proof.
  destruct s as [|y ys]; [done|]. simpl. intros [= <-].
  induction ys as [|z zs IH]; simpl.
  - by apply Forall_singleton.
  - apply Forall_cons in IH as [Hy Hzs].
    apply Forall_cons; split; [lia|]. apply Forall_cons; split; [lia|].
    eapply Forall_impl; [exact Hzs|]. simpl. lia.
Qed.

Lemma year_max_upper D mx :
  year_max D = Ok mx → Forall (λ r : nat * Movie, Year r.2 ≤ mx) D.
Proof.
  intros H%int_max_upper. unfold Year_col in H. by rewrite Forall_fmap in H.
Qed.

Lemma year_min_lower D mn :
  year_min D = Ok mn → Forall (λ r : nat * Movie, mn ≤ Year r.2) D.
Proof.
  intros H%int_min_lower. unfold Year_col in H. by rewrite Forall_fmap in H.
Qed.

Lemma filtered_view_out_of_range D g lo hi :
  Forall (λ r : nat * Movie, Year r.2 < lo ∨ hi < Year r.2) D →
  filtered_view D g (lo, hi) = [].
Proof.
  intros H. apply filter_none. eapply Forall_impl; [exact H|].
  intros r Hr [Hin _]. unfold in_range in Hin. simpl in Hr, Hin. lia.
Qed.

(** C1. The filter returns exactly the records of the dataset whose year
    lies within the inclusive range and whose genre is the selected one,
    with no genre constraint when the selection is the "All Genres" entry;
    a range (Y,Y) returns only records of year Y, and the range
    (max+1,max+1) above the largest year returns nothing. *)
Theorem filtered_exactly_matching (D : DataFrame) (g : string) (lo hi : Z) :
  filtered D g (lo, hi)
    = Ok (filter (λ r, (lo ≤ Year r.2 ≤ hi)
                       ∧ (g = ALL_GENRES ∨ Genre r.2 = Some g)) D)
  ∧ (∀ Y, ∃ view, filtered D g (Y, Y) = Ok view
       ∧ Forall (λ r, Year r.2 = Y) view)
  ∧ (∀ mx, year_max D = Ok mx → filtered D g (mx + 1, mx + 1) = Ok []).
Proof.
  split; [|split].
  - by rewrite filtered_is_view.
  - intros Y. exists (filtered_view D g (Y, Y)). split; [apply filtered_is_view|].
    apply Forall_forall. intros r [[Hr _] _]%list_elem_of_filter.
    unfold in_range in Hr. simpl in Hr. lia.
  - intros mx Hmx%year_max_upper. rewrite filtered_is_view. f_equal.
    apply filtered_view_out_of_range. eapply Forall_impl; [exact Hmx|].
    simpl. lia.
Qed.

Lemma filtered_exactly_matching_witness :
  year_max two_movies = Ok 2010 ∧ filtered two_movies "Drama" (2011, 2011) = Ok [].
Proof.
  split; [reflexivity|].
  apply (proj2 (proj2 (filtered_exactly_matching two_movies "Drama" 2005 2015)) 2010).
  reflexivity.
Defined.

(** The example of the specification: genre "Drama" and years 2005-2015
    keep the second record only. *)
Example filtered_drama_2005_2015 :
  filtered two_movies "Drama" (2005, 2015) = Ok [(1%nat, movie_B)].
Proof. reflexivity. Qed.

(** "All Genres" is the entry for no constraint whatever the table holds:
    selecting it keeps the records of every genre. *)
Example all_genres_keeps_every_genre :
  filtered two_movies ALL_GENRES (2000, 2010) = Ok two_movies.
Proof. reflexivity. Qed.

(** C3. When the lower bound of the year range exceeds the upper bound, the
    filter returns the empty sequence and raises nothing. *)
Theorem filtered_inverted_range (D : DataFrame) (g : string) (lo hi : Z) :
  hi < lo → filtered D g (lo, hi) = Ok [].
Proof.
  intros Hlt. rewrite filtered_is_view. f_equal.
  apply filtered_view_out_of_range. apply Forall_forall. intros r _. lia.
Qed.

Lemma filtered_inverted_range_witness :
  filtered two_movies ALL_GENRES (2000, 1999) = Ok [].
Proof. apply filtered_inverted_range. lia. Defined.

(** C4. Every record of the filtered view is a record of the dataset, with
    its index label, and no record appears twice: the labels of the view
    repeat only if those of the dataset do. *)
Theorem filtered_subset (D : DataFrame) (g : string) (yr : Z * Z) :
  ∃ view, filtered D g yr = Ok view
    ∧ (∀ r, r ∈ view → r ∈ D)
    ∧ (NoDup (labels D) → NoDup (labels view)).
Proof.
  exists (filtered_view D g yr). split; [apply filtered_is_view|]. split.
  - by intros r [_ Hr]%list_elem_of_filter.
  - intros Hnd. eapply sublist_NoDup; [exact Hnd|].
    unfold labels. apply fmap_sublist, sublist_filter.
Qed.

Lemma filtered_subset_witness :
  NoDup (labels three_movies)
  ∧ ∃ view, filtered three_movies "Drama" (2000, 2010) = Ok view
      ∧ (∀ r, r ∈ view → r ∈ three_movies)
      ∧ NoDup (labels view).
Proof.
  assert (Hnd : NoDup (labels three_movies))
    by (apply (bool_decide_unpack (NoDup (labels three_movies))); exact I).
  split; [exact Hnd|].
  destruct (filtered_subset three_movies "Drama" (2000, 2010))
    as (view & Hview & Hsub & Hdup).
  exists view. auto.
Defined.

(** C5. The records of the filtered view appear in the relative order they
    have in the dataset. *)
Theorem filtered_preserves_order (D : DataFrame) (g : string) (yr : Z * Z) :
  ∃ view, filtered D g yr = Ok view ∧ view `sublist_of` D.
Proof.
  exists (filtered_view D g yr). split; [apply filtered_is_view|].
  apply sublist_filter.
Qed.

Lemma labels_range_frame rows : labels (range_frame rows) = seq 0 (length rows).
Proof.
  unfold labels, range_frame. rewrite fmap_imap.
  rewrite (imap_ext _ (λ j _, id j)); [done|].
  by rewrite imap_seq_0 list_fmap_id.
Qed.

Lemma NoDup_labels_range_frame rows : NoDup (labels (range_frame rows)).
Proof. rewrite labels_range_frame. apply NoDup_seq. Qed.

Lemma elem_of_genre_categories D g :
  g ∈ genre_categories D ↔ ∃ r, r ∈ D ∧ Genre r.2 = Some g.
Proof.
  unfold genre_categories, Genre_col.
  rewrite merge_sort_Permutation elem_of_remove_dups list_elem_of_omap. split.
  - intros (c & (r & -> & Hr)%list_elem_of_fmap & Hc). by exists r.
  - intros (r & Hr & Hg). exists (Genre r.2). split; [|done].
    by apply (list_elem_of_fmap_2 (λ r : nat * Movie, Genre r.2)).
Qed.

Lemma union_over_genres_subseteq D yr :
  union_over_genres D yr ⊆ list_to_set (labels (filtered_view D ALL_GENRES yr)).
Proof.
  intros i. unfold union_over_genres, labels.
  rewrite elem_of_union_list elem_of_list_to_set.
  intros (X & (g & -> & _)%list_elem_of_fmap & Hi).
  rewrite filtered_is_view /= elem_of_list_to_set in Hi.
  apply list_elem_of_fmap in Hi as (r & -> & [[Hyr _] Hr]%list_elem_of_filter).
  apply list_elem_of_fmap. exists r. split; [done|].
  apply list_elem_of_filter. split; [|done]. split; [done|]. by left.
Qed.

Lemma union_over_genres_covers D yr :
  Forall has_genre D →
  list_to_set (labels (filtered_view D ALL_GENRES yr)) ⊆ union_over_genres D yr.
Proof.
  intros Hall i. unfold union_over_genres, labels.
  rewrite elem_of_union_list elem_of_list_to_set.
  intros (r & -> & [[Hyr _] Hr]%list_elem_of_filter)%list_elem_of_fmap.
  rewrite ->Forall_forall in Hall. destruct (Hall r Hr) as [g Hg].
  exists (label_set (filtered D g yr)). split.
  - apply list_elem_of_fmap. exists g. split; [done|].
    apply elem_of_genre_categories. by exists r.
  - rewrite filtered_is_view /= elem_of_list_to_set.
    apply list_elem_of_fmap. exists r. split; [done|].
    apply list_elem_of_filter. split; [|done]. split; [done|]. by right.
Qed.

Lemma size_view_labels rows g yr :
  size (list_to_set (labels (filtered_view (range_frame rows) g yr)) : gset nat)
  = length (filtered_view (range_frame rows) g yr).
Proof.
  rewrite size_list_to_set.
  - eapply sublist_NoDup; [apply NoDup_labels_range_frame|].
    unfold labels. apply fmap_sublist, sublist_filter.
  - unfold labels. by rewrite length_fmap.
Qed.

Lemma has_genre_range_frame rows :
  Forall (λ m, is_Some (Genre m)) rows → Forall has_genre (range_frame rows).
Proof.
  intros Hall. apply Forall_forall. intros r Hr. unfold range_frame in Hr.
  apply list_elem_of_lookup in Hr as [i Hi].
  rewrite list_lookup_imap in Hi.
  destruct (rows !! i) as [m|] eqn:Hm; [|done]. injection Hi as <-.
  rewrite ->Forall_forall in Hall. apply Hall.
  by apply list_elem_of_lookup_2 in Hm.
Qed.

(** C6, as the code has it.  For every dataset in which every record has a
    genre, and every year range, the view with no genre constraint has as
    many records as the union of the views taken for every genre of the
    genre domain; for every dataset the union has at most as many. *)
Theorem no_constraint_is_union_over_genres (rows : list Movie) (yr : Z * Z) :
  ∃ view, filtered (range_frame rows) ALL_GENRES yr = Ok view
    ∧ (size (union_over_genres (range_frame rows) yr) ≤ length view)%nat
    ∧ (Forall (λ m, is_Some (Genre m)) rows →
       size (union_over_genres (range_frame rows) yr) = length view).
Proof.
  exists (filtered_view (range_frame rows) ALL_GENRES yr).
  split; [apply filtered_is_view|]. rewrite -size_view_labels. split.
  - apply subseteq_size, union_over_genres_subseteq.
  - intros Hall%has_genre_range_frame. f_equal. apply set_eq. intros i. split.
    + apply union_over_genres_subseteq.
    + by apply union_over_genres_covers.
Qed.

Lemma no_constraint_is_union_over_genres_witness :
  ∃ view, filtered three_movies ALL_GENRES (2000, 2010) = Ok view
    ∧ size (union_over_genres three_movies (2000, 2010)) = length view.
Proof.
  destruct (no_constraint_is_union_over_genres
              [movie_A; movie_B; movie_C] (2000, 2010))
    as (view & Hview & _ & Hall).
  exists view. split; [exact Hview|]. apply Hall.
  repeat constructor; by eexists.
Defined.

(** A record with a blank genre cell is kept when no genre is selected and
    belongs to the view of no genre: the union is then smaller. *)
Lemma union_over_genres_misses_blank_genre :
  ¬ ∃ view, filtered blank_genre_movies ALL_GENRES (2000, 2010) = Ok view
      ∧ size (union_over_genres blank_genre_movies (2000, 2010)) = length view.
Proof.
  intros (view & Hview & Hsize).
  assert (Hunion : union_over_genres blank_genre_movies (2000, 2010) = {[1%nat]}).
  { apply (bool_decide_unpack
             (union_over_genres blank_genre_movies (2000, 2010) = {[1%nat]})).
    vm_compute. exact I. }
  rewrite Hunion size_singleton in Hsize.
  assert (Hall : filtered blank_genre_movies ALL_GENRES (2000, 2010)
                 = Ok blank_genre_movies) by reflexivity.
  rewrite Hall in Hview. injection Hview as <-. discriminate Hsize.
Qed.

(** Two genres over three records: one comedy and two dramas, three in all. *)
Example union_over_genres_three_movies :
  genre_categories three_movies = ["Comedy"; "Drama"]
  ∧ union_over_genres three_movies (2000, 2010) = {[0%nat; 1%nat; 2%nat]}.
Proof.
  split; [reflexivity|].
  apply (bool_decide_unpack
           (union_over_genres three_movies (2000, 2010) = {[0%nat; 1%nat; 2%nat]})).
  vm_compute. exact I.
Qed.

(** C7. A genre that is given and is absent from the genre domain yields
    the empty view, not an error; a year range outside the observed years
    yields fewer records or none, not an error. *)
Theorem filtered_outside_domains (D : DataFrame) (g : string) (lo hi : Z) :
  (g ≠ ALL_GENRES → g ∉ genre_categories D → filtered D g (lo, hi) = Ok [])
  ∧ (∃ view, filtered D g (lo, hi) = Ok view ∧ (length view ≤ length D)%nat)
  ∧ (∀ ymin ymax, year_min D = Ok ymin → year_max D = Ok ymax →
       hi < ymin ∨ ymax < lo → filtered D g (lo, hi) = Ok []).
Proof.
  split; [|split].
  - intros Hg Hdom. rewrite filtered_is_view. f_equal.
    apply filter_none, Forall_forall. intros r Hr [_ [?|Hgen]]; [done|].
    apply Hdom, elem_of_genre_categories. by exists r.
  - exists (filtered_view D g (lo, hi)). split; [apply filtered_is_view|].
    apply length_filter.
  - intros ymin ymax Hmin%year_min_lower Hmax%year_max_upper Hout.
    rewrite filtered_is_view. f_equal. apply filtered_view_out_of_range.
    apply Forall_forall. intros r Hr.
    rewrite ->Forall_forall in Hmin, Hmax.
    specialize (Hmin r Hr). specialize (Hmax r Hr). simpl in *. lia.
Qed.

Lemma filtered_outside_domains_witness :
  filtered two_movies "Horror" (2000, 2010) = Ok []
  ∧ filtered two_movies "Drama" (2011, 2020) = Ok [].
Proof.
  split.
  - apply (proj1 (filtered_outside_domains two_movies "Horror" 2000 2010)).
    + discriminate.
    + apply (bool_decide_unpack ("Horror" ∉ genre_categories two_movies)). exact I.
  - apply (proj2 (proj2 (filtered_outside_domains two_movies "Drama" 2011 2020))
             2000 2010); [reflexivity | reflexivity | lia].
Defined.

(** ** Runs of the script *)

Lemma year_bounds_nonempty movies :
  movies ≠ [] → ∃ lo hi, year_min movies = Ok lo ∧ year_max movies = Ok hi.
Proof. destruct movies as [|r rest]; [done|]. intros _. by eexists _, _. Qed.

(** On a table with a row, the run reaches the end of the overview tab. *)
Lemma app_run movies inp page lo hi :
  year_min movies = Ok lo → year_max movies = Ok hi →
  let view := filtered_view movies (genre_selected inp) (year_range inp) in
  app movies inp page
  = (Ok view,
     (page ++ kpi_elements movies
        ++ [ Selectbox "Select Genre" (genre_options movies);
             Slider "Select Year Range" lo hi (lo, hi);
             SidebarWrite (length view);
             Dataframe (head (if show_first_15 inp then 15%nat else 10%nat) view);
             StatsTable (describe view) ])%list).
Proof.
  intros Hlo Hhi view.
  unfold app, kpi_cards, kpi_elements, mbind, App_bind, emit, lift, mret, App_ret.
  rewrite Hlo Hhi filtered_is_view. fold view.
  by rewrite -!(assoc_L (++)).
Qed.

(** On a table without rows, the run stops at the slider bounds, after the
    KPI cards and the select box. *)
Lemma app_run_empty inp page :
  app [] inp page
  = (Raise ValueError,
     (page ++ kpi_elements [] ++ [Selectbox "Select Genre" (genre_options [])])%list).
Proof.
  unfold app, kpi_cards, kpi_elements, mbind, App_bind, emit, lift, mret, App_ret.
  simpl. by rewrite -!(assoc_L (++)).
Qed.

(** ** Aggregates of an empty view *)

Lemma mean_no_values s : count s = 0%nat → mean s = f64_nan.
Proof. unfold count, mean. by intros ->. Qed.

Lemma describe_col_nil : describe_col [] = mkStats 0 f64_nan.
Proof. reflexivity. Qed.

(** C2. For an empty filtered view the summary reports count 0 and NaN
    means, and nothing is raised: a run whose filter yields the empty view
    reaches the summary table and shows these values. *)
Theorem summary_of_empty_view (view : DataFrame) :
  length view = 0%nat →
  describe view = empty_stats
  ∧ (∀ movies inp,
       movies ≠ [] →
       filtered movies (genre_selected inp) (year_range inp) = Ok view →
       ∃ page, app movies inp [] = (Ok view, page)
         ∧ SidebarWrite 0 ∈ page
         ∧ StatsTable empty_stats ∈ page).
Proof.
  intros ->%nil_length_inv. split; [reflexivity|].
  intros movies inp (lo & hi & Hlo & Hhi)%year_bounds_nonempty Hview.
  rewrite filtered_is_view in Hview. injection Hview as Hview.
  eexists. split.
  - rewrite (app_run _ _ _ _ _ Hlo Hhi) /=. rewrite Hview. reflexivity.
  - simpl. split; apply list_elem_of_In; simpl; tauto.
Qed.

Lemma summary_of_empty_view_witness :
  describe [] = empty_stats
  ∧ ∃ page, app two_movies (mkInputs "Horror" (2000, 2010) false) [] = (Ok [], page)
      ∧ SidebarWrite 0 ∈ page
      ∧ StatsTable empty_stats ∈ page.
Proof.
  destruct (summary_of_empty_view [] eq_refl) as [Hd Hrun].
  split; [exact Hd|].
  apply (Hrun two_movies (mkInputs "Horror" (2000, 2010) false)).
  - discriminate.
  - reflexivity.
Defined.

(** ** The filter as statements over frame objects *)

Lemma alloc_spec df heap :
  ∃ ref, alloc df heap = Ok (ref, <[ref := df]> heap) ∧ heap !! ref = None.
Proof.
  exists (fresh (dom heap)). split; [done|].
  apply not_elem_of_dom, is_fresh.
Qed.

Lemma df_copy_spec heap ref df :
  heap !! ref = Some df →
  ∃ ref', df_copy ref heap = Ok (ref', <[ref' := df]> heap) ∧ heap !! ref' = None.
Proof.
  intros Href. unfold df_copy, mbind, Py_bind, deref. rewrite Href.
  apply alloc_spec.
Qed.

Lemma df_getitem_spec heap ref df mask selected :
  heap !! ref = Some df →
  getitem_bool df (mask df) = Ok selected →
  ∃ ref', df_getitem ref mask heap = Ok (ref', <[ref' := selected]> heap)
    ∧ heap !! ref' = None.
Proof.
  intros Href Hsel. unfold df_getitem, mbind, Py_bind, deref, py_lift.
  rewrite Href Hsel. apply alloc_spec.
Qed.

(** A run of the block ends on a new frame with the rows [filtered]
    computes, and leaves every object of the heap as it was. *)
Lemma filter_block_spec heap movies D g yr :
  heap !! movies = Some D →
  ∃ ref heap' view,
    filter_block movies g yr heap = Ok (ref, heap')
    ∧ filtered D g yr = Ok view
    ∧ heap' !! ref = Some view
    ∧ heap ⊆ heap'.
Proof.
  intros HD. unfold filter_block, filtered.
  destruct (df_copy_spec heap movies D HD) as (r1 & Hcopy & Hr1).
  destruct (getitem_bool D (between (Year_col D) yr.1 yr.2)) as [years|e] eqn:Hy.
  2:{ by rewrite between_mask getitem_bool_fmap in Hy. }
  destruct (df_getitem_spec (<[r1 := D]> heap) r1 D
              (λ df, between (Year_col df) yr.1 yr.2) years)
    as (r2 & Hyears & Hr2); [apply lookup_insert_eq | done |].
  assert (Hsub : heap ⊆ <[r2 := years]> (<[r1 := D]> heap)).
  { etrans; [|by apply insert_subseteq]. by apply insert_subseteq. }
  unfold mbind at 1 2. unfold Py_bind at 1 2. rewrite Hcopy Hyears.
  unfold mbind, result_bind.
  destruct (negb (g =? ALL_GENRES)%string).
  - destruct (getitem_bool years (eq_scalar (Genre_col years) g))
      as [genre|e] eqn:Hg.
    2:{ by rewrite eq_scalar_mask getitem_bool_fmap in Hg. }
    destruct (df_getitem_spec (<[r2 := years]> (<[r1 := D]> heap)) r2 years
                (λ df, eq_scalar (Genre_col df) g) genre)
      as (r3 & Hgenre & Hr3); [apply lookup_insert_eq | done |].
    exists r3, (<[r3 := genre]> (<[r2 := years]> (<[r1 := D]> heap))), genre.
    split; [done|]. split; [done|]. split; [apply lookup_insert_eq|].
    etrans; [exact Hsub|]. by apply insert_subseteq.
  - exists r2, (<[r2 := years]> (<[r1 := D]> heap)), years.
    split; [done|]. split; [done|]. split; [apply lookup_insert_eq|done].
Qed.

(** C9. The filter is deterministic and keeps no hidden state.  Run as the
    statements of lines 111-115 over the heap of frame objects, twice in a
    row for the same dataset and criteria, the second time in the heap the
    first run left, it ends both times on a frame with the same rows, those
    [filtered] computes; neither run changes an object that existed before,
    the dataset in particular, and the second leaves the result of the
    first as it was. *)
Theorem filtered_deterministic (heap : gmap nat DataFrame) (movies : nat)
    (D : DataFrame) (g : string) (yr : Z * Z) :
  heap !! movies = Some D →
  ∃ ref1 heap1 ref2 heap2 view,
    filter_block movies g yr heap = Ok (ref1, heap1)
    ∧ filter_block movies g yr heap1 = Ok (ref2, heap2)
    ∧ heap1 !! ref1 = Some view
    ∧ heap2 !! ref2 = Some view
    ∧ filtered D g yr = Ok view
    ∧ heap1 !! movies = Some D
    ∧ heap2 !! movies = Some D
    ∧ heap2 !! ref1 = Some view
    ∧ (∀ ref df, heap !! ref = Some df → heap2 !! ref = Some df).
Proof.
  intros HD.
  destruct (filter_block_spec heap movies D g yr HD)
    as (ref1 & heap1 & view & Hrun1 & Hview & Hres1 & Hsub1).
  assert (HD1 : heap1 !! movies = Some D) by by eapply lookup_weaken.
  destruct (filter_block_spec heap1 movies D g yr HD1)
    as (ref2 & heap2 & view' & Hrun2 & Hview' & Hres2 & Hsub2).
  rewrite Hview in Hview'. injection Hview' as <-.
  exists ref1, heap1, ref2, heap2, view.
  repeat split; try done.
  - by eapply lookup_weaken.
  - by eapply lookup_weaken.
  - intros ref df Href. eapply lookup_weaken; [|exact Hsub2].
    by eapply lookup_weaken.
Qed.

Lemma filtered_deterministic_witness :
  ∃ ref1 heap1 ref2 heap2 view,
    filter_block 7 "Drama" (2005, 2015) {[ 7%nat := three_movies ]} = Ok (ref1, heap1)
    ∧ filter_block 7 "Drama" (2005, 2015) heap1 = Ok (ref2, heap2)
    ∧ heap1 !! ref1 = Some view
    ∧ heap2 !! ref2 = Some view
    ∧ filtered three_movies "Drama" (2005, 2015) = Ok view
    ∧ heap1 !! 7%nat = Some three_movies
    ∧ heap2 !! 7%nat = Some three_movies
    ∧ heap2 !! ref1 = Some view
    ∧ (∀ ref df, ({[ 7%nat := three_movies ]} : gmap nat DataFrame) !! ref = Some df →
         heap2 !! ref = Some df).
Proof.
  apply (filtered_deterministic {[ 7%nat := three_movies ]} 7 three_movies
           "Drama" (2005, 2015)).
  reflexivity.
Defined.

(** C10. The four KPI cards are computed over the loaded dataset, not over
    the filtered view: whatever the filter criteria, a run shows the means
    and the count of the whole dataset. *)
Theorem kpis_ignore_filter (movies : DataFrame) (inp : Inputs) :
  kpis_of (app movies inp []).2 = kpi_elements movies.
Proof.
  destruct movies as [|r rest].
  - by rewrite app_run_empty.
  - destruct (year_bounds_nonempty (r :: rest)) as (lo & hi & Hlo & Hhi); [done|].
    by rewrite (app_run _ _ _ _ _ Hlo Hhi).
Qed.

(** The criteria do change what the sidebar reports. *)
Example sidebar_count_follows_filter :
  SidebarWrite 3 ∈ (app three_movies (mkInputs ALL_GENRES (2000, 2010) false) []).2
  ∧ SidebarWrite 1 ∈ (app three_movies (mkInputs "Drama" (2009, 2010) false) []).2.
Proof. split; apply list_elem_of_In; vm_compute; tauto. Qed.

(** ** The loader *)

Section LoaderFacts.

Variable parse : string → result Frame.



End LoaderFacts.



(** * Further properties of the script *)

Lemma filter_all {A} (P : A → Prop) `{∀ x, Decision (P x)} (l : list A) :
  Forall P l → filter P l = l.
Proof.
  induction 1 as [|x l Hx _ IH]; [done|].
  by rewrite filter_cons_True // IH.
Qed.

Lemma filter_filter_stronger {A} (P Q : A → Prop)
    `{∀ x, Decision (P x)} `{∀ x, Decision (Q x)} (l : list A) :
  (∀ x, Q x → P x) → filter Q (filter P l) = filter Q l.
Proof.
  intros HQP. rewrite list_filter_filter. apply list_filter_iff.
  intros x. split; [tauto|]. intros HQ. split; [done|]. by apply HQP.
Qed.

Lemma int_min_attained s mn : int_min s = Ok mn → mn ∈ s.
Proof.
  destruct s as [|y ys]; [done|]. simpl. intros [= <-].
  induction ys as [|z zs IH]; simpl; [by left|].
  destruct (Z.min_spec z (foldr Z.min y zs)) as [[_ ->]|[_ ->]].
  - right. by left.
  - apply elem_of_cons in IH as [->|IH]; [by left|]. right. by right.
Qed.

Lemma int_max_attained s mx : int_max s = Ok mx → mx ∈ s.
Proof.
  destruct s as [|y ys]; [done|]. simpl. intros [= <-].
  induction ys as [|z zs IH]; simpl; [by left|].
  destruct (Z.max_spec z (foldr Z.max y zs)) as [[_ ->]|[_ ->]].
  - apply elem_of_cons in IH as [->|IH]; [by left|]. right. by right.
  - right. by left.
Qed.

(** X1. The bounds of the year slider are years of the table, the lower
    one not above the upper one, and every year of the table lies between
    them. *)
Theorem year_bounds_tight (movies : DataFrame) (lo hi : Z) :
  year_min movies = Ok lo → year_max movies = Ok hi →
  lo ≤ hi
  ∧ lo ∈ Year_col movies ∧ hi ∈ Year_col movies
  ∧ Forall (λ y, lo ≤ y ≤ hi) (Year_col movies).
Proof.
  intros Hlo Hhi.
  pose proof (int_min_attained _ _ Hlo) as Hlo_in.
  pose proof (int_max_attained _ _ Hhi) as Hhi_in.
  pose proof (int_min_lower _ _ Hlo) as Hlower.
  pose proof (int_max_upper _ _ Hhi) as Hupper.
  rewrite ->Forall_forall in Hlower, Hupper.
  split; [|split; [done|split; [done|]]].
  - specialize (Hupper lo Hlo_in). simpl in Hupper. lia.
  - apply Forall_forall. intros y Hy.
    specialize (Hlower y Hy). specialize (Hupper y Hy). simpl in *. lia.
Qed.

Lemma year_bounds_tight_witness :
  2000 ≤ 2010
  ∧ 2000 ∈ Year_col three_movies ∧ 2010 ∈ Year_col three_movies
  ∧ Forall (λ y, 2000 ≤ y ≤ 2010) (Year_col three_movies).
Proof. apply (year_bounds_tight three_movies 2000 2010); reflexivity. Defined.

(** X2. With the widgets at their initial values, the first genre option and
    the whole slider range, the filtered view is the whole table. *)
Theorem default_widgets_show_all (movies : DataFrame) (lo hi : Z) :
  year_min movies = Ok lo → year_max movies = Ok hi →
  genre_options movies !! 0%nat = Some ALL_GENRES
  ∧ filtered movies ALL_GENRES (lo, hi) = Ok movies.
Proof.
  intros Hlo%year_min_lower Hhi%year_max_upper. split; [done|].
  rewrite filtered_is_view. f_equal. apply filter_all.
  rewrite ->Forall_forall in Hlo, Hhi. apply Forall_forall. intros r Hr.
  specialize (Hlo r Hr). specialize (Hhi r Hr). simpl in *.
  split; [done|]. by left.
Qed.

Lemma default_widgets_show_all_witness :
  genre_options three_movies !! 0%nat = Some ALL_GENRES
  ∧ filtered three_movies ALL_GENRES (2000, 2010) = Ok three_movies.
Proof. apply (default_widgets_show_all three_movies 2000 2010); reflexivity. Defined.

(** X3. On a table without rows a run stops at the slider bounds, with the
    ValueError of the integer cast of a NaN minimum, whatever the widgets
    return: the page then holds the KPI cards, with NaN means and a total
    of 0, and the select box with its single option, and nothing of the
    sidebar count, the table or the summary. *)
Theorem app_stops_on_empty_table (inp : Inputs) (page : list Element) :
  app [] inp page
  = (Raise ValueError,
     (page ++ [ KpiCard "Avg Critic Rating" f64_nan;
                KpiCard "Avg Audience Rating" f64_nan;
                KpiCard "Avg Budget (M)" f64_nan;
                KpiTotal "Total Movies" 0;
                Selectbox "Select Genre" [ALL_GENRES] ])%list).
Proof. by rewrite app_run_empty. Qed.

(** X4. Narrowing the criteria only removes rows: the view for a year range
    inside another, and for a genre instead of all genres, is a subsequence
    of the wider view. *)
Theorem filtered_narrowing (D : DataFrame) (g : string) (lo hi lo' hi' : Z) :
  lo ≤ lo' → hi' ≤ hi →
  ∃ wide wide_g narrow,
    filtered D ALL_GENRES (lo, hi) = Ok wide
    ∧ filtered D g (lo, hi) = Ok wide_g
    ∧ filtered D g (lo', hi') = Ok narrow
    ∧ narrow `sublist_of` wide_g ∧ wide_g `sublist_of` wide.
Proof.
  intros Hlo Hhi. eexists _, _, _.
  split; [apply filtered_is_view|]. split; [apply filtered_is_view|].
  split; [apply filtered_is_view|]. unfold filtered_view. split.
  - rewrite -(filter_filter_stronger (kept g (lo, hi)) (kept g (lo', hi'))).
    + intros r [Hyr Hg]. split; [|done]. unfold in_range in *. simpl in *. lia.
    + apply sublist_filter.
  - rewrite -(filter_filter_stronger (kept ALL_GENRES (lo, hi)) (kept g (lo, hi))).
    + intros r [Hyr Hg]. split; [done|]. by left.
    + apply sublist_filter.
Qed.

Lemma filtered_narrowing_witness :
  ∃ wide wide_g narrow,
    filtered three_movies ALL_GENRES (2000, 2010) = Ok wide
    ∧ filtered three_movies "Drama" (2000, 2010) = Ok wide_g
    ∧ filtered three_movies "Drama" (2009, 2010) = Ok narrow
    ∧ narrow `sublist_of` wide_g ∧ wide_g `sublist_of` wide.
Proof. apply (filtered_narrowing three_movies "Drama" 2000 2010 2009 2010); lia. Defined.

(** X5. Filtering a view again, for the same genre, gives the view of the
    table for the intersection of the two year ranges; with the same range
    it gives the view back. *)
Theorem filtered_twice (D view : DataFrame) (g : string) (lo1 hi1 lo2 hi2 : Z) :
  filtered D g (lo1, hi1) = Ok view →
  filtered view g (lo2, hi2) = filtered D g (lo1 `max` lo2, hi1 `min` hi2)
  ∧ filtered view g (lo1, hi1) = Ok view.
Proof.
  rewrite filtered_is_view. intros [= <-]. rewrite !filtered_is_view.
  unfold filtered_view. split; f_equal.
  - rewrite list_filter_filter. apply list_filter_iff. intros r.
    unfold kept, in_range. simpl. split.
    + intros [[? ?] [? ?]]. split; [lia|done].
    + intros [? ?]. repeat split; (done || lia).
  - by apply filter_filter_stronger.
Qed.

Lemma filtered_twice_witness :
  filtered [(1%nat, movie_B); (2%nat, movie_C)] "Drama" (2009, 2020)
  = filtered three_movies "Drama" (2000 `max` 2009, 2010 `min` 2020)
  ∧ filtered [(1%nat, movie_B); (2%nat, movie_C)] "Drama" (2000, 2010)
    = Ok [(1%nat, movie_B); (2%nat, movie_C)].
Proof.
  apply (filtered_twice three_movies _ "Drama" 2000 2010 2009 2020). reflexivity.
Defined.

(** ** Genres: the select box and the groups of the stacked histogram *)

#[local] Instance str_le_total : Total str_le.
Proof. intros s1 s2. apply String.leb_total. Qed.

(** X6. The genre options are "All Genres" followed by the genres of the
    table, each once and in ascending order; the options are pairwise
    distinct exactly when no record has the genre "All Genres". *)
Theorem genre_options_shape (movies : DataFrame) :
  genre_options movies = ALL_GENRES :: genre_categories movies
  ∧ NoDup (genre_categories movies)
  ∧ Sorted str_le (genre_categories movies)
  ∧ (∀ g, g ∈ genre_categories movies ↔ Some g ∈ Genre_col movies)
  ∧ (NoDup (genre_options movies) ↔ Some ALL_GENRES ∉ Genre_col movies).
Proof.
  assert (Hmem : ∀ g, g ∈ genre_categories movies ↔ Some g ∈ Genre_col movies).
  { intros g. unfold genre_categories.
    rewrite merge_sort_Permutation elem_of_remove_dups list_elem_of_omap.
    split; [intros (c & Hc & Hid); by simplify_eq/=|]. intros Hg. by exists (Some g). }
  assert (Hnd : NoDup (genre_categories movies)).
  { unfold genre_categories. rewrite merge_sort_Permutation.
    apply NoDup_remove_dups. }
  split; [done|]. split; [done|]. split; [apply Sorted_merge_sort, _|].
  split; [done|]. unfold genre_options. rewrite NoDup_cons Hmem. tauto.
Qed.

(** A table with a genre named like the first option offers it twice. *)
Example genre_options_repeat :
  genre_options
    (range_frame [mkMovie (Some "D") (Some ALL_GENRES) f64_zero f64_zero f64_zero 2001])
  = [ALL_GENRES; ALL_GENRES].
Proof. reflexivity. Qed.

Section Grouping.

Context {A K : Type} `{EqDecision K} (key : A → K).

(** Grouping by a key: the groups of the distinct keys, put end to end,
    hold every element once. *)
Lemma groups_by_key (ks : list K) (l : list A) :
  NoDup ks → Forall (λ x, key x ∈ ks) l →
  concat ((λ k, filter (λ x, key x = k) l) <$> ks) ≡ₚ l.
Proof.
  intros Hnd. revert l.
  induction Hnd as [|k ks Hk Hnd IH]; intros l Hl.
  - destruct l as [|x l]; [done|].
    apply Forall_cons in Hl as [Hx _]. by apply elem_of_nil in Hx.
  - rewrite fmap_cons /=.
    assert ((λ k', filter (λ x, key x = k') l) <$> ks
            = (λ k', filter (λ x, key x = k') (filter (λ x, ¬ key x = k) l)) <$> ks)
      as ->.
    { apply Forall_fmap_ext, Forall_forall. intros k' Hk'.
      symmetry. apply filter_filter_stronger. intros x <- Heq.
      apply Hk. by rewrite -Heq. }
    rewrite IH.
    + apply Forall_forall. intros x [Hne Hx]%list_elem_of_filter.
      rewrite ->Forall_forall in Hl. specialize (Hl x Hx). simpl in Hl.
      apply elem_of_cons in Hl as [?|?]; done.
    + apply filter_app_complement.
Qed.

Lemma group_nonempty (l : list A) (k : K) :
  k ∈ key <$> l → filter (λ x, key x = k) l ≠ [].
Proof.
  intros (x & -> & Hx)%list_elem_of_fmap Hnil.
  by apply (filter_nil_not_elem_of _ _ x) in Hnil.
Qed.

End Grouping.

Lemma concat_fmap_fmap {A B K} (f : A → B) (h : K → list A) (ks : list K) :
  concat ((λ k, f <$> h k) <$> ks) = f <$> concat (h <$> ks).
Proof.
  induction ks as [|k ks IH]; [done|].
  by rewrite !fmap_cons /= fmap_app IH.
Qed.

Lemma for_each_ok {A B} (f : A → result B) (h : A → B) (l : list A) :
  (∀ x, f x = Ok (h x)) → for_each f l = Ok (h <$> l).
Proof. intros Hf. induction l as [|x l IH]; [done|]. simpl. by rewrite Hf IH. Qed.

(** Grouping by a key that can be missing: the groups of the distinct keys
    hold every element that has a key once, and no other. *)
Lemma groups_by_optional_key {A K} `{EqDecision K} (key : A → option K)
    (ks : list K) (l : list A) :
  NoDup ks → Forall (λ x, ∀ k, key x = Some k → k ∈ ks) l →
  concat ((λ k, filter (λ x, key x = Some k) l) <$> ks)
  ≡ₚ filter (λ x, is_Some (key x)) l.
Proof.
  intros Hnd Hl.
  assert ((λ k, filter (λ x, key x = Some k) l) <$> ks
          = (λ c, filter (λ x, key x = c) (filter (λ x, is_Some (key x)) l))
              <$> (Some <$> ks)) as ->.
  { rewrite -list_fmap_compose. apply Forall_fmap_ext, Forall_forall.
    intros k _. simpl. symmetry. apply filter_filter_stronger.
    intros x Hx. by rewrite Hx. }
  apply (groups_by_key key).
  - by apply (NoDup_fmap_2 Some).
  - apply Forall_forall. intros x [[k Hx] Hin]%list_elem_of_filter.
    rewrite ->Forall_forall in Hl. rewrite Hx.
    apply list_elem_of_fmap_2. by apply (Hl x Hin).
Qed.

Lemma genre_rows movies g :
  getitem_bool movies (eq_scalar (Genre_col movies) g)
  = Ok (filter (λ r, Genre r.2 = Some g) movies).
Proof.
  rewrite eq_scalar_mask getitem_bool_fmap. f_equal.
  apply list_filter_iff. intros r. apply genre_mask_spec.
Qed.

Lemma genres_covered (movies : DataFrame) :
  Forall (λ r : nat * Movie,
            ∀ g, Genre r.2 = Some g → g ∈ genre_categories movies) movies.
Proof.
  apply Forall_forall. intros r Hr g Hg.
  apply elem_of_genre_categories. by exists r.
Qed.

Lemma NoDup_genre_categories movies : NoDup (genre_categories movies).
Proof.
  unfold genre_categories. rewrite merge_sort_Permutation. apply NoDup_remove_dups.
Qed.

(** X7. The stacked histogram gets one budget column per genre of the table,
    none of them empty, and together they hold exactly once the budget of
    every record that has a genre; a record with a blank genre is in no
    column.  The selection raises nothing. *)
Theorem budget_by_genre_partition (movies : DataFrame) :
  ∃ groups, budget_by_genre movies = Ok groups
    ∧ length groups = length (genre_list movies)
    ∧ Forall (λ budgets, budgets ≠ []) groups
    ∧ concat groups ≡ₚ BudgetMillions_col (filter has_genre movies).
Proof.
  eexists. split.
  { unfold budget_by_genre. apply for_each_ok. intros g. by rewrite genre_rows. }
  split; [by rewrite length_fmap|]. split.
  - apply Forall_fmap, Forall_forall. intros g Hg. simpl.
    unfold BudgetMillions_col. intros Hnil%fmap_nil_inv. revert Hnil.
    apply (group_nonempty (λ r : nat * Movie, Genre r.2)).
    apply elem_of_genre_categories in Hg as (r & Hr & <-).
    by apply (list_elem_of_fmap_2 (λ r : nat * Movie, Genre r.2)).
  - unfold BudgetMillions_col.
    rewrite (concat_fmap_fmap _
               (λ g, filter (λ r : nat * Movie, Genre r.2 = Some g) movies)).
    apply fmap_Permutation.
    apply (groups_by_optional_key (λ r : nat * Movie, Genre r.2));
      [apply NoDup_genre_categories | apply genres_covered].
Qed.

Example budget_by_genre_three_movies :
  budget_by_genre three_movies
  = Ok [[f64_of_Z 8]; [f64_of_Z 105; f64_of_Z 20]].
Proof. reflexivity. Qed.

(** The budget of the record with a blank genre is in no column. *)
Example budget_by_genre_blank_genre :
  budget_by_genre blank_genre_movies = Ok [[f64_of_Z 105]]
  ∧ BudgetMillions_col blank_genre_movies = [f64_of_Z 12; f64_of_Z 105].
Proof. split; reflexivity. Qed.

(** X8. When no genre is named "All Genres", the views for the genres of
    the table, put end to end, hold exactly once every row of the view
    without genre constraint that has a genre, and no other: the counts per
    genre add up to the number of such rows. *)
Theorem genre_views_partition (D : DataFrame) (yr : Z * Z) :
  ALL_GENRES ∉ genre_categories D →
  ∃ views all,
    for_each (λ g, filtered D g yr) (genre_categories D) = Ok views
    ∧ filtered D ALL_GENRES yr = Ok all
    ∧ concat views ≡ₚ filter has_genre all
    ∧ sum_list (length <$> views) = length (filter has_genre all).
Proof.
  intros Hsent.
  assert (Hviews : for_each (λ g, filtered D g yr) (genre_categories D)
                   = Ok ((λ g, filtered_view D g yr) <$> genre_categories D)).
  { apply for_each_ok. intros g. apply filtered_is_view. }
  assert (Hperm : concat ((λ g, filtered_view D g yr) <$> genre_categories D)
                  ≡ₚ filter has_genre (filtered_view D ALL_GENRES yr)).
  { assert ((λ g, filtered_view D g yr) <$> genre_categories D
            = (λ g, filter (λ r : nat * Movie, Genre r.2 = Some g)
                      (filtered_view D ALL_GENRES yr)) <$> genre_categories D)
      as ->.
    { apply Forall_fmap_ext, Forall_forall. intros g Hg. unfold filtered_view.
      rewrite list_filter_filter. apply list_filter_iff. intros r.
      unfold kept, genre_ok. split.
      - intros [Hyr [->|Hgen]]; [done|by auto].
      - intros (Hgen & Hyr & _). auto. }
    apply (groups_by_optional_key (λ r : nat * Movie, Genre r.2));
      [apply NoDup_genre_categories|].
    apply Forall_forall. intros r [_ Hr]%list_elem_of_filter g Hg.
    apply elem_of_genre_categories. by exists r. }
  eexists _, _. split; [exact Hviews|]. split; [apply filtered_is_view|].
  split; [exact Hperm|].
  rewrite -Hperm. clear.
  induction (genre_categories D) as [|g gs IH]; [done|].
  rewrite !fmap_cons /= length_app. by rewrite IH.
Qed.

Lemma genre_views_partition_witness :
  ∃ views all,
    for_each (λ g, filtered blank_genre_movies g (2000, 2010))
      (genre_categories blank_genre_movies) = Ok views
    ∧ filtered blank_genre_movies ALL_GENRES (2000, 2010) = Ok all
    ∧ concat views ≡ₚ filter has_genre all
    ∧ sum_list (length <$> views) = length (filter has_genre all).
Proof.
  apply (genre_views_partition blank_genre_movies (2000, 2010)).
  apply (bool_decide_unpack (ALL_GENRES ∉ genre_categories blank_genre_movies)).
  exact I.
Defined.

(** X9. The violin plot of the advanced tab gets every drama of the table,
    whatever the year range of the sidebar: the filtered view for "Drama"
    is a subsequence of it, and equals it when the slider spans all years. *)
Theorem drama_movies_ignore_years (movies : DataFrame) (lo hi : Z) :
  ∃ drama view,
    drama_movies movies = Ok drama
    ∧ filtered movies "Drama" (lo, hi) = Ok view
    ∧ (∀ r, r ∈ drama ↔ r ∈ movies ∧ Genre r.2 = Some "Drama")
    ∧ view `sublist_of` drama
    ∧ (year_min movies = Ok lo → year_max movies = Ok hi → view = drama).
Proof.
  eexists _, _. split; [apply genre_rows|]. split; [apply filtered_is_view|].
  assert (Hview : filtered_view movies "Drama" (lo, hi)
                  = filter (λ r : nat * Movie, in_range (lo, hi) r.2)
                      (filter (λ r : nat * Movie, Genre r.2 = Some "Drama") movies)).
  { unfold filtered_view. rewrite list_filter_filter. apply list_filter_iff.
    intros r. unfold kept, genre_ok. split.
    - intros [Hyr [Hg|Hg]]; [discriminate Hg | done].
    - intros [Hyr Hg]. auto. }
  split; [|split].
  - intros r. rewrite list_elem_of_filter. tauto.
  - rewrite Hview. apply sublist_filter.
  - intros Hlo%year_min_lower Hhi%year_max_upper. rewrite Hview.
    apply filter_all, Forall_forall. intros r [_ Hr]%list_elem_of_filter.
    rewrite ->Forall_forall in Hlo, Hhi.
    specialize (Hlo r Hr). specialize (Hhi r Hr). by split.
Qed.

Lemma drama_movies_ignore_years_witness :
  ∃ drama view,
    drama_movies three_movies = Ok drama
    ∧ filtered three_movies "Drama" (2000, 2010) = Ok view
    ∧ view = drama.
Proof.
  destruct (drama_movies_ignore_years three_movies 2000 2010)
    as (drama & view & Hdrama & Hview & _ & _ & Heq).
  exists drama, view. split; [done|]. split; [done|].
  apply Heq; reflexivity.
Defined.

(** ** The overview table and its button *)

(** X10. The button "Show First 15 Filtered Movies" changes the run exactly
    when the filtered view has more than ten rows. *)
Theorem button_matters_iff_long_view (movies view : DataFrame) (g : string)
    (yr : Z * Z) (page : list Element) :
  filtered movies g yr = Ok view →
  app movies (mkInputs g yr true) page = app movies (mkInputs g yr false) page
  ↔ (length view ≤ 10)%nat.
Proof.
  rewrite filtered_is_view. intros [= <-].
  destruct movies as [|r rest].
  { rewrite !app_run_empty. split; [intros _; simpl; lia | done]. }
  destruct (year_bounds_nonempty (r :: rest)) as (lo & hi & Hlo & Hhi); [done|].
  rewrite !(app_run _ _ _ _ _ Hlo Hhi).
  cbn [show_first_15 genre_selected year_range].
  set (view := filtered_view (r :: rest) g yr).
  assert (Htables : head 15 view = head 10 view ↔ (length view ≤ 10)%nat).
  { unfold head. split.
    - intros Heq%(f_equal length). rewrite !length_take in Heq. lia.
    - intros Hlen. by rewrite !take_ge; [lia..|]. }
  rewrite -Htables. generalize (head 15 view) (head 10 view).
  intros t15 t10. split.
  - intros Heq%(f_equal snd). cbn [snd] in Heq.
    do 2 apply app_inv_head in Heq. congruence.
  - by intros ->.
Qed.

Lemma button_matters_iff_long_view_witness :
  app three_movies (mkInputs "Drama" (2000, 2010) true) []
  = app three_movies (mkInputs "Drama" (2000, 2010) false) []
  ↔ (length [(1%nat, movie_B); (2%nat, movie_C)] ≤ 10)%nat.
Proof.
  apply (button_matters_iff_long_view three_movies _ "Drama" (2000, 2010) []).
  reflexivity.
Defined.

(** ** The cache of the loader *)

(** X11. Once a load has succeeded, every later load of the same path
    returns the same table from the cache, whatever has become of the file;
    entries under other paths are left as they were. *)
Theorem cached_load_is_served_again (parse : string → result Frame)
    (fs : gmap string File) (cache cache' : gmap string Frame)
    (path : string) (movies : Frame) :
  load_movies_cached parse fs cache path = (Ok movies, cache') →
  cache' !! path = Some movies
  ∧ (∀ fs', load_movies_cached parse fs' cache' path = (Ok movies, cache'))
  ∧ (∀ other, other ≠ path → cache' !! other = cache !! other).
Proof.
  unfold load_movies_cached.
  destruct (cache !! path) as [cached|] eqn:Hhit.
  - intros [= <- <-]. split; [done|]. split; [|done].
    intros fs'. by rewrite Hhit.
  - destruct (load_movies parse fs path) as [df|e]; [|done].
    intros [= <- <-]. split; [apply lookup_insert_eq|]. split.
    + intros fs'. by rewrite lookup_insert_eq.
    + intros other Hne. by rewrite lookup_insert_ne.
Qed.

Lemma cached_load_is_served_again_witness :
  load_movies_cached header_parse some_files ∅ DATA_PATH
  = (Ok (mkFrame CANONICAL []), {[ DATA_PATH := mkFrame CANONICAL [] ]})
  ∧ load_movies_cached header_parse ∅
      {[ DATA_PATH := mkFrame CANONICAL [] ]} DATA_PATH
    = (Ok (mkFrame CANONICAL []), {[ DATA_PATH := mkFrame CANONICAL [] ]}).
Proof.
  assert (Hfirst : load_movies_cached header_parse some_files ∅ DATA_PATH
                   = (Ok (mkFrame CANONICAL []),
                      {[ DATA_PATH := mkFrame CANONICAL [] ]})) by reflexivity.
  split; [exact Hfirst|].
  apply (cached_load_is_served_again header_parse some_files ∅
           {[ DATA_PATH := mkFrame CANONICAL [] ]} DATA_PATH
           (mkFrame CANONICAL []) Hfirst).
Defined.

(** X12. A load that raises leaves the cache as it was, with no entry for
    the path, so the next run reads the file again: it succeeds as soon as
    the file can be loaded. *)
Theorem failed_load_is_retried (parse : string → result Frame)
    (fs fs' : gmap string File) (cache cache' : gmap string Frame)
    (path : string) (e : exn) :
  load_movies_cached parse fs cache path = (Raise e, cache') →
  cache' = cache
  ∧ load_movies parse fs path = Raise e
  ∧ load_movies_cached parse fs' cache' path
    = match load_movies parse fs' path with
      | Ok movies => (Ok movies, <[path := movies]> cache)
      | Raise e' => (Raise e', cache)
      end.
Proof.
  unfold load_movies_cached.
  destruct (cache !! path) as [cached|] eqn:Hhit; [done|].
  destruct (load_movies parse fs path) as [df|e0]; [done|].
  intros [= <- <-]. split; [done|]. split; [done|]. by rewrite Hhit.
Qed.

Lemma failed_load_is_retried_witness :
  load_movies_cached header_parse some_files ∅ "later.csv"
  = (Raise FileNotFoundError, ∅)
  ∧ load_movies_cached header_parse
      (<["later.csv" := Text "a,b,c,d,e,f"]> some_files) ∅ "later.csv"
    = (Ok (mkFrame CANONICAL []), {[ "later.csv" := mkFrame CANONICAL [] ]}).
Proof.
  assert (Hfail : load_movies_cached header_parse some_files ∅ "later.csv"
                  = (Raise FileNotFoundError, ∅)) by reflexivity.
  split; [exact Hfail|].
  destruct (failed_load_is_retried header_parse some_files
              (<["later.csv" := Text "a,b,c,d,e,f"]> some_files)
              ∅ ∅ "later.csv" FileNotFoundError Hfail) as (_ & _ & ->).
  reflexivity.
Defined.
